(** * The payload-converter loader of [packages/common/src/data-converter-helpers.ts]

    A shallow embedding of [isValidPayloadConverter], [requirePayloadConverter]
    and [loadDataConverter], together with the fragment of JavaScript the three
    functions rely on: values and [typeof], truthiness, strict comparison with a
    string literal, member access along the prototype chain, [??], exceptions
    and [try]/[catch].

    What the file imports from [@temporalio/workflow-common] and from the
    Node.js runtime ([require], [errorCode], [hasOwnProperty], the two default
    singletons) is not part of the embedded sources.  It is gathered in a
    record [Host]; every statement about the loader is quantified over it.

    The module [CreateProject] further down embeds the command line script
    that the sources carry next to the loader, with its own environment
    record. *)

From Stdlib Require Import String Ascii List Bool ZArith.
From Stdlib Require Import Floats.PrimFloat.
Import ListNotations.

Local Open Scope string_scope.
Local Open Scope bool_scope.

Set Warnings "-register-all".

(** ** JavaScript values *)

(** What [typeof] separates among objects: ordinary objects and arrays answer
    ['object'], callable objects answer ['function']. *)
Inductive ObjectKind : Type :=
  | Ordinary
  | Callable
  | ArrayExotic.

(** A JavaScript value.  An object carries its identity [ref] (two objects are
    the same instance only when their [ref] agree), its own data properties in
    insertion order and its prototype, which is [JNull] or again an object.
    An array keeps its elements the way the language does: as own properties
    named ["0"], ["1"], ... next to ["length"].  The properties listed are
    data properties; what a getter does is code of the host and is kept in
    the [Host] record. *)
Inductive JsValue : Type :=
  | JUndefined
  | JNull
  | JBoolean (b : bool)
  | JNumber (x : float)
  | JBigInt (z : Z)
  | JString (s : string)
  | JSymbol (ref : nat)
  | JObject (ref : nat) (kind : ObjectKind)
            (own : list (string * JsValue)) (proto : JsValue).

(** [typeof v], as the string the operator evaluates to. *)
Definition typeof (v : JsValue) : string :=
  match v with
  | JUndefined => "undefined"
  | JNull => "object"
  | JBoolean _ => "boolean"
  | JNumber _ => "number"
  | JBigInt _ => "bigint"
  | JString _ => "string"
  | JSymbol _ => "symbol"
  | JObject _ Callable _ _ => "function"
  | JObject _ _ _ _ => "object"
  end.

(** [v !== null]. *)
Definition isNotNull (v : JsValue) : bool :=
  match v with
  | JNull => false
  | _ => true
  end.

(** [v === 'lit'] for a string literal: no coercion takes place. *)
Definition strictEqualsString (v : JsValue) (lit : string) : bool :=
  match v with
  | JString s => String.eqb s lit
  | _ => false
  end.

(** ToBoolean, the test an [if] applies to its condition. *)
Definition truthy (v : JsValue) : bool :=
  match v with
  | JUndefined | JNull => false
  | JBoolean b => b
  | JNumber x => negb (is_zero x || is_nan x)
  | JBigInt z => negb (Z.eqb z 0)
  | JString s => negb (String.eqb s EmptyString)
  | JSymbol _ => true
  | JObject _ _ _ _ => true
  end.

(** [Array.isArray v]. *)
Definition isArray (v : JsValue) : bool :=
  match v with
  | JObject _ ArrayExotic _ _ => true
  | _ => false
  end.

(** First binding of [key] among own properties. *)
Fixpoint ownProperty (own : list (string * JsValue)) (key : string)
  : option JsValue :=
  match own with
  | [] => None
  | (k, v) :: rest => if String.eqb k key then Some v else ownProperty rest key
  end.

(** [o[key]] for an object [o]: the own property when there is one, else the
    prototype's answer, [undefined] at the end of the chain.  On a value that
    is not an object the function answers [undefined]; the loader reaches it
    on objects only (see [getMember] for member access on any value). *)
Fixpoint getProp (o : JsValue) (key : string) : JsValue :=
  match o with
  | JObject _ _ own proto =>
      match ownProperty own key with
      | Some v => v
      | None => getProp proto key
      end
  | _ => JUndefined
  end.

(** [a ?? b]. *)
Definition nullish (a b : JsValue) : JsValue :=
  match a with
  | JUndefined | JNull => b
  | _ => a
  end.

(** ** Exceptions and the loader's effects *)

(** What a [throw] carries out of the loader: an error the loader builds
    itself with [new ValueError(message)], the [TypeError] the language raises
    when a member of [undefined] or [null] is read, or a value thrown by the
    host (by [require] or by one of the imported helpers). *)
Inductive Thrown : Type :=
  | ValueError (message : string)
  | TypeError (reading : string)
  | Foreign (error : JsValue).

(** The constructor name of a thrown error, where the loader knows it. *)
Definition errorClass (t : Thrown) : option string :=
  match t with
  | ValueError _ => Some "ValueError"
  | TypeError _ => Some "TypeError"
  | Foreign _ => None
  end.

Inductive Completion (A : Type) : Type :=
  | Normal (a : A)
  | Abrupt (t : Thrown).

Arguments Normal {A} a.
Arguments Abrupt {A} t.

(** A call into the host either returns a value or throws one. *)
Inductive HostResult : Type :=
  | Returned (v : JsValue)
  | Threw (error : JsValue).

(** The journal of module specifiers handed to [require], oldest first: the
    one effect of the loader besides raising. *)
Definition Journal : Type := list string.

Definition Loader (A : Type) : Type := Journal -> Completion A * Journal.

Definition ret {A : Type} (a : A) : Loader A :=
  fun j => (Normal a, j).

Definition throw {A : Type} (t : Thrown) : Loader A :=
  fun j => (Abrupt t, j).

Definition bind {A B : Type} (m : Loader A) (k : A -> Loader B) : Loader B :=
  fun j =>
    match m j with
    | (Normal a, j') => k a j'
    | (Abrupt t, j') => (Abrupt t, j')
    end.

(** A step that leaves the journal alone. *)
Definition complete {A : Type} (c : Completion A) : Loader A :=
  fun j => (c, j).

(** A helper call: its value, or its exception as it is. *)
Definition call (r : HostResult) : Loader JsValue :=
  match r with
  | Returned v => ret v
  | Threw error => throw (Foreign error)
  end.

(** [try { x = <host call> } catch (error) { handler }]. *)
Definition tryCatch (r : HostResult) (handler : JsValue -> Loader JsValue)
  : Loader JsValue :=
  match r with
  | Returned v => ret v
  | Threw error => handler error
  end.

(** Appends one specifier to the journal, then runs [m]. *)
Definition journaled {A : Type} (path : string) (m : Loader A) : Loader A :=
  fun j => m (j ++ [path])%list.

Declare Scope loader_scope.
Delimit Scope loader_scope with loader.
Notation "x <- m ;; k" := (bind m (fun x => k))
  (at level 61, m at next level, right associativity) : loader_scope.
Local Open Scope loader_scope.

(** ** The host: imports of the source file that are not part of it *)

(** [require] is Node's module loader.  [errorCode], [hasOwnProperty],
    [defaultPayloadConverter] and [defaultPayloadCodec] are imported from
    [@temporalio/workflow-common].  A helper is taken as any JavaScript
    function: it returns some value or throws some value.
    [primitiveMember v key] is what the realm's wrapper prototypes answer when
    [key] is read from the primitive [v].
    [accessor o key n] tells whether [key], read from the object [o], is an
    accessor property, as the re-exports of a compiled module are, and if so
    what its getter does the [n]-th time the loader reads it in one run,
    counted from 0: it returns a value or throws one, and need not do the
    same each time.  [None] stands for a data property. *)
Record Host : Type := {
  require : string -> HostResult;
  errorCode : JsValue -> HostResult;
  hasOwnProperty : JsValue -> string -> HostResult;
  defaultPayloadConverter : JsValue;
  defaultPayloadCodec : JsValue;
  primitiveMember : JsValue -> string -> JsValue;
  accessor : JsValue -> string -> nat -> option HostResult
}.

(** ** Configuration and result *)

Module DataConverter.

(** Modelled from the spec: the [DataConverter] configuration interface, which
    [@temporalio/workflow-common] declares.  The spec lists three optional
    fields: [payloadConverterPath], a string reference; [payloadConverter], a
    direct instance; [payloadCodec], a codec or an ordered list of codecs.  An
    absent path is [None]; an absent instance or codec is [JUndefined]. *)
Record t : Type := {
  payloadConverterPath : option string;
  payloadConverter : JsValue;
  payloadCodec : JsValue
}.

End DataConverter.

Module LoadedDataConverter.

(** The object literal [loadDataConverter] returns. *)
Record t : Type := {
  payloadConverter : JsValue;
  payloadCodec : JsValue
}.

End LoadedDataConverter.

(** The value of an optional string property. *)
Definition optionalString (p : option string) : JsValue :=
  match p with
  | Some s => JString s
  | None => JUndefined
  end.

(** ** The loader *)

Section Loading.

Variable host : Host.

(** [v.key] on any value, read for the [n]-th time: reading from
    [undefined] or [null] raises; on an object an accessor runs its getter,
    which returns or throws, and a data property yields its value. *)
Definition getMember (v : JsValue) (key : string) (n : nat)
  : Completion JsValue :=
  match v with
  | JUndefined | JNull => Abrupt (TypeError key)
  | JObject _ _ _ _ =>
      match accessor host v key n with
      | Some (Returned got) => Normal got
      | Some (Threw error) => Abrupt (Foreign error)
      | None => Normal (getProp v key)
      end
  | _ => Normal (primitiveMember host v key)
  end.

(** [isValidPayloadConverter]: an object, not [null], on which each of
    ['toPayload'] and ['fromPayload'] reads as a function. *)
Definition isValidPayloadConverter (PayloadConverter : JsValue) : bool :=
  String.eqb (typeof PayloadConverter) "object"
  && isNotNull PayloadConverter
  && forallb
       (fun method => String.eqb (typeof (getProp PayloadConverter method)) "function")
       ["toPayload"; "fromPayload"].

(** [requirePayloadConverter(path)]. *)
Definition requirePayloadConverter (path : string) : Loader JsValue :=
  module <- journaled path
    (tryCatch (require host path) (fun error =>
       code <- call (errorCode host error) ;;
       if strictEqualsString code "MODULE_NOT_FOUND"
       then throw (ValueError
                     ("Could not find a file at the specified payloadConverterPath: '"
                        ++ path ++ "'."))
       else throw (Foreign error))) ;;
  named <- call (hasOwnProperty host module "payloadConverter") ;;
  if truthy named then
    export <- complete (getMember module "payloadConverter" 0) ;;
    if isValidPayloadConverter export then
      complete (getMember module "payloadConverter" 1)
    else
      throw (ValueError
               ("payloadConverter export at " ++ path
                  ++ " must be an object with toPayload and fromPayload methods"))
  else
    throw (ValueError
             ("Module " ++ path ++ " does not have a `payloadConverter` named export")).

(** [dataConverter?.payloadConverterPath]. *)
Definition pathOf (dataConverter : option DataConverter.t) : option string :=
  match dataConverter with
  | Some dc => DataConverter.payloadConverterPath dc
  | None => None
  end.

(** [dataConverter?.payloadCodec]. *)
Definition codecOf (dataConverter : option DataConverter.t) : JsValue :=
  match dataConverter with
  | Some dc => DataConverter.payloadCodec dc
  | None => JUndefined
  end.

(** [loadDataConverter(dataConverter?)]. *)
Definition loadDataConverter (dataConverter : option DataConverter.t)
  : Loader LoadedDataConverter.t :=
  payloadConverter <-
    (match pathOf dataConverter with
     | Some path =>
         if truthy (JString path) then requirePayloadConverter path
         else ret (defaultPayloadConverter host)
     | None => ret (defaultPayloadConverter host)
     end) ;;
  ret {| LoadedDataConverter.payloadConverter := payloadConverter;
         LoadedDataConverter.payloadCodec :=
           nullish (codecOf dataConverter) (defaultPayloadCodec host) |}.

(** *** Vocabulary of the statements *)

(** The module behind [path] cannot be located: [require] throws an error
    whose code reads ['MODULE_NOT_FOUND']. *)
Definition notLocated (path : string) : Prop :=
  exists error,
    require host path = Threw error
    /\ errorCode host error = Returned (JString "MODULE_NOT_FOUND").

(** [module] has a named export [payloadConverter], as the loader tests it. *)
Definition hasNamedExport (module : JsValue) : Prop :=
  exists named,
    hasOwnProperty host module "payloadConverter" = Returned named
    /\ truthy named = true.

(** [module] exposes the export [export] under the name [payloadConverter]:
    [export] is what the loader reads there, and checks. *)
Definition exposes (module export : JsValue) : Prop :=
  hasNamedExport module
  /\ getMember module "payloadConverter" 0 = Normal export.

(** What the loader reads under the name [payloadConverter] when it reads
    again, to return it. *)
Definition reread (module : JsValue) : Completion JsValue :=
  getMember module "payloadConverter" 1.

(** The module behind [path] resolves and its export passes the capability
    check. *)
Definition loadsValid (path : string) : Prop :=
  exists module export,
    require host path = Returned module
    /\ exposes module export
    /\ isValidPayloadConverter export = true.

(** The three messages of [requirePayloadConverter]. *)
Definition notFoundMessage (path : string) : string :=
  "Could not find a file at the specified payloadConverterPath: '" ++ path ++ "'.".

Definition invalidShapeMessage (path : string) : string :=
  "payloadConverter export at " ++ path
    ++ " must be an object with toPayload and fromPayload methods".

Definition noExportMessage (path : string) : string :=
  "Module " ++ path ++ " does not have a `payloadConverter` named export".

(** What the result of [loadDataConverter] is when no module is loaded. *)
Definition defaults (dataConverter : option DataConverter.t)
  : LoadedDataConverter.t :=
  {| LoadedDataConverter.payloadConverter := defaultPayloadConverter host;
     LoadedDataConverter.payloadCodec :=
       nullish (codecOf dataConverter) (defaultPayloadCodec host) |}.

End Loading.

(** The capability contract in the words of the specification: a non-null
    object with callable [toPayload] and [fromPayload] members. *)
Definition structurallyValid (export : JsValue) : Prop :=
  typeof export = "object"
  /\ export <> JNull
  /\ typeof (getProp export "toPayload") = "function"
  /\ typeof (getProp export "fromPayload") = "function".

(** The spec's words for a codec pipeline: an ordered list of codecs. *)
Definition isPipeline (v : JsValue) : bool := isArray v.

(** [needle] occurs in [text] as it is given. *)
Definition occursIn (needle text : string) : Prop :=
  exists before after, text = before ++ needle ++ after.

(** A property that is left out, or set to [undefined] or [null]. *)
Definition absent (v : JsValue) : Prop :=
  v = JUndefined \/ v = JNull.

(** No converter and no codec is overridden: the path is absent or falsy,
    the direct instance and the codec are absent. *)
Definition noOverride (dataConverter : option DataConverter.t) : Prop :=
  match dataConverter with
  | None => True
  | Some dc =>
      truthy (optionalString (DataConverter.payloadConverterPath dc)) = false
      /\ absent (DataConverter.payloadConverter dc)
      /\ absent (DataConverter.payloadCodec dc)
  end.

(** The same configuration with the path property left out. *)
Definition withoutPath (dataConverter : option DataConverter.t)
  : option DataConverter.t :=
  match dataConverter with
  | Some dc =>
      Some {| DataConverter.payloadConverterPath := None;
              DataConverter.payloadConverter := DataConverter.payloadConverter dc;
              DataConverter.payloadCodec := DataConverter.payloadCodec dc |}
  | None => None
  end.

(** The same configuration with another direct instance. *)
Definition withInstance (dc : DataConverter.t) (instance : JsValue)
  : DataConverter.t :=
  {| DataConverter.payloadConverterPath := DataConverter.payloadConverterPath dc;
     DataConverter.payloadConverter := instance;
     DataConverter.payloadCodec := DataConverter.payloadCodec dc |}.

(** The same configuration with another codec setting. *)
Definition withCodec (dc : DataConverter.t) (codec : JsValue)
  : DataConverter.t :=
  {| DataConverter.payloadConverterPath := DataConverter.payloadConverterPath dc;
     DataConverter.payloadConverter := DataConverter.payloadConverter dc;
     DataConverter.payloadCodec := codec |}.


(** The ways through [requirePayloadConverter], each with what it depends on
    in the host and with the completion it ends in. *)
Inductive RequireCase (host : Host) (path : string)
  : Completion JsValue -> Prop :=
  | CaseChecked (module export : JsValue) (c : Completion JsValue) :
      require host path = Returned module ->
      exposes host module export ->
      isValidPayloadConverter export = true ->
      reread host module = c ->
      RequireCase host path c
  | CaseInvalidShape (module export : JsValue) :
      require host path = Returned module ->
      exposes host module export ->
      isValidPayloadConverter export = false ->
      RequireCase host path (Abrupt (ValueError (invalidShapeMessage path)))
  | CaseReadFailed (module : JsValue) (t : Thrown) :
      require host path = Returned module ->
      hasNamedExport host module ->
      getMember host module "payloadConverter" 0 = Abrupt t ->
      RequireCase host path (Abrupt t)
  | CaseNoExport (module named : JsValue) :
      require host path = Returned module ->
      hasOwnProperty host module "payloadConverter" = Returned named ->
      truthy named = false ->
      RequireCase host path (Abrupt (ValueError (noExportMessage path)))
  | CaseHelperThrew (module error : JsValue) :
      require host path = Returned module ->
      hasOwnProperty host module "payloadConverter" = Threw error ->
      RequireCase host path (Abrupt (Foreign error))
  | CaseNotLocated :
      notLocated host path ->
      RequireCase host path (Abrupt (ValueError (notFoundMessage path)))
  | CaseRethrown (error code : JsValue) :
      require host path = Threw error ->
      errorCode host error = Returned code ->
      code <> JString "MODULE_NOT_FOUND" ->
      RequireCase host path (Abrupt (Foreign error))
  | CaseCodeThrew (error error' : JsValue) :
      require host path = Threw error ->
      errorCode host error = Threw error' ->
      RequireCase host path (Abrupt (Foreign error')).

(** ** A concrete host

    A small module table to run the loader on: one module per situation the
    statements below speak about. *)

Module Sample.

Definition fn (ref : nat) : JsValue := JObject ref Callable [] JNull.

(** [{ toPayload() {...}, fromPayload() {...} }]. *)
Definition customConverter : JsValue :=
  JObject 10 Ordinary [("toPayload", fn 11); ("fromPayload", fn 12)] JNull.

(** An instance of a class: both methods live on the prototype. *)
Definition classConverter : JsValue :=
  JObject 20 Ordinary []
    (JObject 21 Ordinary [("toPayload", fn 22); ("fromPayload", fn 23)] JNull).

(** An export that can encode only. *)
Definition encodeOnly : JsValue :=
  JObject 30 Ordinary [("toPayload", fn 31)] JNull.

Definition goodModule : JsValue :=
  JObject 1 Ordinary [("payloadConverter", customConverter)] JNull.

Definition classModule : JsValue :=
  JObject 2 Ordinary [("payloadConverter", classConverter)] JNull.

Definition encodeOnlyModule : JsValue :=
  JObject 3 Ordinary [("payloadConverter", encodeOnly)] JNull.

(** [export function toPayload ...; export function fromPayload ...], and no
    export named [payloadConverter]. *)
Definition topLevelModule : JsValue :=
  JObject 4 Ordinary [("toPayload", fn 41); ("fromPayload", fn 42)] JNull.

(** The error of a module that is not there. *)
Definition notFoundError : JsValue :=
  JObject 50 Ordinary
    [("code", JString "MODULE_NOT_FOUND"); ("message", JString "Cannot find module")]
    JNull.

(** The error of a module that throws while it is evaluated. *)
Definition evaluationError : JsValue :=
  JObject 51 Ordinary [("message", JString "boom")] JNull.

Definition nullishReceiverError : JsValue :=
  JObject 52 Ordinary [("message", JString "not an object")] JNull.

Definition builtinConverter : JsValue :=
  JObject 60 Ordinary [("toPayload", fn 61); ("fromPayload", fn 62)] JNull.

Definition builtinCodec : JsValue :=
  JObject 70 Ordinary [("encode", fn 71); ("decode", fn 72)] JNull.

Definition gzipCodec : JsValue :=
  JObject 80 Ordinary [("encode", fn 81); ("decode", fn 82)] JNull.

Definition cryptCodec : JsValue :=
  JObject 90 Ordinary [("encode", fn 91); ("decode", fn 92)] JNull.

(** [[gzipCodec, cryptCodec]]. *)
Definition codecList : JsValue :=
  JObject 95 ArrayExotic
    [("0", gzipCodec); ("1", cryptCodec); ("length", JNumber 2%float)] JNull.

Definition modules (path : string) : HostResult :=
  if String.eqb path "./good" then Returned goodModule
  else if String.eqb path "./class" then Returned classModule
  else if String.eqb path "./encode-only" then Returned encodeOnlyModule
  else if String.eqb path "./top-level" then Returned topLevelModule
  else if String.eqb path "./throws" then Threw evaluationError
  else Threw notFoundError.

Definition host : Host :=
  {| require := modules;
     errorCode := fun error => Returned (getProp error "code");
     hasOwnProperty := fun record prop =>
       match record with
       | JObject _ _ own _ =>
           Returned (JBoolean (match ownProperty own prop with
                               | Some _ => true
                               | None => false
                               end))
       | JUndefined | JNull => Threw nullishReceiverError
       | _ => Returned (JBoolean false)
       end;
     defaultPayloadConverter := builtinConverter;
     defaultPayloadCodec := builtinCodec;
     primitiveMember := fun _ _ => JUndefined;
     accessor := fun _ _ _ => None |}.

Definition config (path : option string) (instance codec : JsValue)
  : DataConverter.t :=
  {| DataConverter.payloadConverterPath := path;
     DataConverter.payloadConverter := instance;
     DataConverter.payloadCodec := codec |}.

End Sample.

(** A host with one more module, whose export is an accessor: its getter
    hands out a full converter the first time and an object that can only
    encode from then on. *)
Module Unstable.

Definition exportsObject : JsValue := JObject 300 Ordinary [] JNull.

Definition isExportsObject (v : JsValue) : bool :=
  match v with
  | JObject ref _ _ _ => Nat.eqb ref 300
  | _ => false
  end.

Definition host : Host :=
  {| require := fun path =>
       if String.eqb path "./unstable" then Returned exportsObject
       else require Sample.host path;
     errorCode := errorCode Sample.host;
     hasOwnProperty := fun record prop =>
       if isExportsObject record && String.eqb prop "payloadConverter"
       then Returned (JBoolean true)
       else hasOwnProperty Sample.host record prop;
     defaultPayloadConverter := defaultPayloadConverter Sample.host;
     defaultPayloadCodec := defaultPayloadCodec Sample.host;
     primitiveMember := primitiveMember Sample.host;
     accessor := fun o key n =>
       if isExportsObject o && String.eqb key "payloadConverter"
       then Some (Returned (match n with
                            | O => Sample.customConverter
                            | S _ => Sample.encodeOnly
                            end))
       else None |}.

End Unstable.

(** Further values to run the capability check on. *)
Module MoreSamples.

(** An instance whose own [toPayload] is a string, on a prototype that has
    both methods. *)
Definition shadowingConverter : JsValue :=
  JObject 110 Ordinary [("toPayload", JString "not a method")]
    (JObject 21 Ordinary
       [("toPayload", Sample.fn 22); ("fromPayload", Sample.fn 23)] JNull).

End MoreSamples.

(** ** The project generator's command line

    The second part of [packages/test/src/workflows/unhandled-rejection.ts]
    holds the entry script of the project generator: [run], the [validate]
    callback of its first prompt, [notifyUpdate] and the promise chain that
    starts them.  The script talks to the terminal, asks questions, and ends
    the process; the embedding records what it does in a trace and keeps the
    three ways a step can end apart: it returns, it throws, or the process
    exits. *)

Module CreateProject.

Definition newline : string := String "010"%char EmptyString.

Definition quote : string := String "034"%char EmptyString.

(** How an awaited promise settles.  Every promise the script awaits is
    taken to settle; a promise that stays pending forever has no place in
    the embedding. *)
Inductive Settled (A : Type) : Type :=
  | Fulfilled (a : A)
  | Rejected (reason : JsValue).

Arguments Fulfilled {A} a.
Arguments Rejected {A} reason.

(** The object [validateNpmName] answers with. *)
Record Validation : Type := {
  valid : bool;
  problems : option (list string)
}.

(** One entry of the [choices] of a select prompt. *)
Record Choice : Type := {
  title : string;
  value : string
}.

(** The argument of [prompts]: the text question with its [validate]
    callback, or the select question with its choices and initial index. *)
Inductive Question : Type :=
  | TextQuestion (name message initial : string) (validate : string -> JsValue)
  | SelectQuestion (name message : string) (choices : list Choice) (initial : Z).

(** The argument of [createApp]. *)
Record CreateArgs : Type := {
  appPath : string;
  useYarn : bool;
  example : string;
  examplePath : option string
}.

(** The answers object of [prompts]: its own properties. *)
Definition Answers : Type := list (string * JsValue).

(** [res.key] on an answers object. *)
Definition answer (res : Answers) (key : string) : JsValue :=
  match ownProperty res key with
  | Some v => v
  | None => JUndefined
  end.

(** What the script does to the outside, in order. *)
Inductive Event : Type :=
  | FetchExamples
  | Prompt (q : Question)
  | ConsoleLog (args : list JsValue)
  | ConsoleError (args : list JsValue)
  | CreateApp (args : CreateArgs).

(** What the script imports and what the command line holds.  The four
    [opt] fields are [program.opts()] as commander fills it: a flag is
    [true] or missing, an option with a value is a string or missing.
    [args0] is [program.args[0]].  [cyan] to [yellowBold] are the chalk
    styles, [trim] is [String.prototype.trim], [resolve] and [basename] are
    those of [path].  [update] is what the promise [update] is fulfilled
    with: the answer of [checkForUpdate], or [null] after its [catch]. *)
Record Env : Type := {
  optListExamples : bool;
  optUseYarn : bool;
  optExample : option string;
  optExamplePath : option string;
  args0 : option string;
  programName : string;
  cyan : JsValue -> string;
  green : JsValue -> string;
  red : JsValue -> string;
  redBold : JsValue -> string;
  yellowBold : JsValue -> string;
  trim : string -> string;
  resolve : string -> string;
  basename : string -> string;
  validateNpmName : string -> Validation;
  fetchExamples : Settled (list string);
  prompts : Question -> Settled Answers;
  createApp : CreateArgs -> Settled unit;
  update : JsValue
}.

(** How a step of the script ends: [process.exit(code)] ends the process
    and is no exception, so no [catch] sees it.  [E] is what can be thrown:
    in [run] and [notifyUpdate] the reason of a rejected promise; in the
    [catch] handler of the chain also the [TypeError] of reading a member of
    [undefined] or [null]. *)
Inductive Ending (E A : Type) : Type :=
  | Returns (a : A)
  | Throws (e : E)
  | Exits (code : option Z).

Arguments Returns {E A} a.
Arguments Throws {E A} e.
Arguments Exits {E A} code.

Definition Trace : Type := list Event.

Definition Script (E A : Type) : Type := Trace -> Ending E A * Trace.

Definition ret {E A : Type} (a : A) : Script E A :=
  fun tr => (Returns a, tr).

Definition bind {E A B : Type} (m : Script E A) (k : A -> Script E B)
  : Script E B :=
  fun tr =>
    match m tr with
    | (Returns a, tr') => k a tr'
    | (Throws e, tr') => (Throws e, tr')
    | (Exits code, tr') => (Exits code, tr')
    end.

Definition emit {E : Type} (e : Event) : Script E unit :=
  fun tr => (Returns tt, (tr ++ [e])%list).

Definition throw {E A : Type} (e : E) : Script E A :=
  fun tr => (Throws e, tr).

(** [await p]. *)
Definition await {A : Type} (p : Settled A) : Script JsValue A :=
  match p with
  | Fulfilled a => ret a
  | Rejected reason => throw reason
  end.

(** [process.exit(code)]. *)
Definition exit {E A : Type} (code : option Z) : Script E A :=
  fun tr => (Exits code, tr).

(** [try { body } catch (e) { handler }], and [body.catch(handler)] alike. *)
Definition tryCatch {E E' A : Type} (body : Script E A)
    (handler : E -> Script E' A) : Script E' A :=
  fun tr =>
    match body tr with
    | (Returns a, tr') => (Returns a, tr')
    | (Throws e, tr') => handler e tr'
    | (Exits code, tr') => (Exits code, tr')
    end.

Declare Scope script_scope.
Delimit Scope script_scope with script.
Notation "x <- m ;; k" := (bind m (fun x => k))
  (at level 61, m at next level, right associativity) : script_scope.
Notation "m ;; k" := (bind m (fun _ => k))
  (at level 61, right associativity) : script_scope.
Local Open Scope script_scope.

(** [!v] for a string that may be missing. *)
Definition falsy (v : option string) : bool :=
  negb (truthy (optionalString v)).

(** The string of a variable known to hold one. *)
Definition theString (v : option string) : string :=
  match v with
  | Some s => s
  | None => EmptyString
  end.

(** [examples.indexOf(wanted)], counted from [from]. *)
Fixpoint indexFrom (from : Z) (wanted : string) (examples : list string) : Z :=
  match examples with
  | [] => (-1)%Z
  | e :: rest =>
      if String.eqb e wanted then from else indexFrom (from + 1)%Z wanted rest
  end.

Definition indexOf (wanted : string) (examples : list string) : Z :=
  indexFrom 0%Z wanted examples.

(** ['text' + v] where [v] is a string or [undefined]. *)
Definition plusOptional (text : string) (v : option string) : string :=
  text ++ match v with
          | Some s => s
          | None => "undefined"
          end.

Section Script.

Variable env : Env.

Definition consoleLog {E : Type} (args : list JsValue) : Script E unit :=
  emit (ConsoleLog args).

Definition consoleError {E : Type} (args : list JsValue) : Script E unit :=
  emit (ConsoleError args).

(** The line printed for one naming problem. *)
Definition problemLine (p : string) : Event :=
  ConsoleError [JString ("    " ++ redBold env (JString "*") ++ " " ++ p)].

(** [problems?.forEach((p) => console.error(...))] on the array. *)
Fixpoint forEachProblem (ps : list string) : Script JsValue unit :=
  match ps with
  | [] => ret tt
  | p :: rest => emit (problemLine p) ;; forEachProblem rest
  end.

(** The [validate] callback of the text prompt. *)
Definition validateName (name : string) : JsValue :=
  let validation := validateNpmName env (basename env (resolve env name)) in
  if valid validation then JBoolean true
  else JString (plusOptional "Invalid project name: "
                  (match problems validation with
                   | Some ps => hd_error ps
                   | None => None
                   end)).

(** The eight lines printed when no project directory is known. *)
Definition explainMissingDirectory : Script JsValue unit :=
  consoleError [] ;;
  consoleError [JString "Please specify the project directory:"] ;;
  consoleError [JString ("  " ++ cyan env (JString (programName env)) ++ " "
                           ++ green env (JString "<project-directory>"))] ;;
  consoleError [] ;;
  consoleError [JString "For example:"] ;;
  consoleError [JString ("  " ++ cyan env (JString (programName env)) ++ " "
                           ++ green env (JString "my-temporal-project"))] ;;
  consoleError [] ;;
  consoleError [JString ("Run "
                           ++ cyan env (JString (programName env ++ " --help"))
                           ++ " to see all options.")].

(** The eight lines printed when no example is known. *)
Definition explainMissingExample : Script JsValue unit :=
  consoleError [] ;;
  consoleError [JString "Please specify which example:"] ;;
  consoleError [JString ("  " ++ cyan env (JString (programName env))
                           ++ " --example "
                           ++ green env (JString "<name|github-url>"))] ;;
  consoleError [] ;;
  consoleError [JString "For example:"] ;;
  consoleError [JString ("  " ++ cyan env (JString (programName env))
                           ++ " --example " ++ green env (JString "hello-world"))] ;;
  consoleError [] ;;
  consoleError [JString ("Run "
                           ++ cyan env (JString (programName env ++ " --help"))
                           ++ " to see all options.")].

Definition textQuestion : Question :=
  TextQuestion "path" "What is your project named?" "my-temporal" validateName.

Definition selectQuestion (examples : list string) : Question :=
  SelectQuestion "example" "Which example would you like to use?"
    (map (fun example => {| title := example; value := example |}) examples)
    (indexOf "hello-world" examples).

(** [let projectPath = program.args[0]], trimmed when it is a string, and
    asked for when it is falsy. *)
Definition askProjectPath : Script JsValue (option string) :=
  let projectPath := option_map (trim env) (args0 env) in
  if falsy projectPath then
    emit (Prompt textQuestion) ;;
    res <- await (prompts env textQuestion) ;;
    match answer res "path" with
    | JString path => ret (Some (trim env path))
    | _ => ret projectPath
    end
  else ret projectPath.

(** [let example = opts.example], asked for when it is falsy. *)
Definition askExample : Script JsValue (option string) :=
  if falsy (optExample env) then
    emit FetchExamples ;;
    examples <- await (fetchExamples env) ;;
    emit (Prompt (selectQuestion examples)) ;;
    res <- await (prompts env (selectQuestion examples)) ;;
    match answer res "example" with
    | JString example => ret (Some example)
    | _ => ret (optExample env)
    end
  else ret (optExample env).

Definition createArgs (resolvedProjectPath example : string) : CreateArgs :=
  {| appPath := resolvedProjectPath;
     useYarn := optUseYarn env;
     example := trim env example;
     examplePath := option_map (trim env) (optExamplePath env) |}.

(** [run()]. *)
Definition run : Script JsValue unit :=
  if optListExamples env then
    emit FetchExamples ;;
    examples <- await (fetchExamples env) ;;
    consoleLog [JString ("Available examples:" ++ newline ++ newline
                           ++ String.concat newline examples ++ newline)]
  else
    projectPath <- askProjectPath ;;
    if falsy projectPath then
      explainMissingDirectory ;;
      exit (Some 1%Z)
    else
      let resolvedProjectPath := resolve env (theString projectPath) in
      let projectName := basename env resolvedProjectPath in
      let validation := validateNpmName env projectName in
      if negb (valid validation) then
        consoleError
          [JString ("Could not create a project called "
                      ++ red env (JString (quote ++ projectName ++ quote))
                      ++ " because of npm naming restrictions:")] ;;
        match problems validation with
        | Some ps => forEachProblem ps
        | None => ret tt
        end ;;
        exit (Some 1%Z)
      else
        example <- askExample ;;
        if falsy example then
          explainMissingExample ;;
          exit (Some 1%Z)
        else
          let args := createArgs resolvedProjectPath (theString example) in
          emit (CreateApp args) ;;
          await (createApp env args).

(** [res?.latest] on what [update] is fulfilled with: an object or [null]. *)
Definition latestOf (res : JsValue) : JsValue := getProp res "latest".

(** What [notifyUpdate] prints. *)
Definition updateNotice : list Event :=
  if truthy (latestOf (update env)) then
    [ConsoleLog [];
     ConsoleLog [JString (yellowBold env
                   (JString "A new version of `@temporalio/create` is available!"))];
     ConsoleLog [JString ("You can update by running: "
                   ++ cyan env (JString (if optUseYarn env
                                         then "yarn global add @temporalio/create"
                                         else "npm i -g @temporalio/create")))];
     ConsoleLog []]
  else [].

(** [notifyUpdate()]. *)
Definition notifyUpdate {E : Type} : Script E unit :=
  tryCatch
    (res <- await (Fulfilled (update env)) ;;
     (if truthy (latestOf res) then
        consoleLog [] ;;
        consoleLog [JString (yellowBold env
                      (JString "A new version of `@temporalio/create` is available!"))] ;;
        consoleLog [JString ("You can update by running: "
                      ++ cyan env (JString (if optUseYarn env
                                            then "yarn global add @temporalio/create"
                                            else "npm i -g @temporalio/create")))] ;;
        consoleLog []
      else ret tt) ;;
     exit None)
    (fun _ => ret tt).

(** [reason.command] in the handler of the chain. *)
Definition commandOf (reason : JsValue) : Script Thrown JsValue :=
  match reason with
  | JUndefined | JNull => throw (TypeError "command")
  | _ => ret (getProp reason "command")
  end.

(** [run().then(notifyUpdate).catch(async (reason) => ...)]. *)
Definition main : Script Thrown unit :=
  tryCatch (run ;; notifyUpdate)
    (fun reason =>
       consoleLog [] ;;
       consoleLog [JString "Aborting installation."] ;;
       command <- commandOf reason ;;
       (if truthy command then
          consoleLog [JString ("  " ++ cyan env command ++ " has failed.")]
        else
          consoleLog [JString (red env
                        (JString "Unexpected error. Please report it as a bug:"))] ;;
          consoleLog [reason]) ;;
       consoleLog [] ;;
       notifyUpdate ;;
       exit (Some 1%Z)).

(** *** Vocabulary of the statements *)

Definition isCreate (e : Event) : bool :=
  match e with
  | CreateApp _ => true
  | _ => false
  end.

Definition isPrompt (e : Event) : bool :=
  match e with
  | Prompt _ => true
  | _ => false
  end.

Definition isFetch (e : Event) : bool :=
  match e with
  | FetchExamples => true
  | _ => false
  end.

Definition isConsoleError (e : Event) : bool :=
  match e with
  | ConsoleError _ => true
  | _ => false
  end.

(** The project path [run] settles on before it asks anybody. *)
Definition givenPath : option string := option_map (trim env) (args0 env).

End Script.

(** The same command line with another first argument. *)
Definition withArgs0 (env : Env) (arg : option string) : Env :=
  {| optListExamples := optListExamples env;
     optUseYarn := optUseYarn env;
     optExample := optExample env;
     optExamplePath := optExamplePath env;
     args0 := arg;
     programName := programName env;
     cyan := cyan env;
     green := green env;
     red := red env;
     redBold := redBold env;
     yellowBold := yellowBold env;
     trim := trim env;
     resolve := resolve env;
     basename := basename env;
     validateNpmName := validateNpmName env;
     fetchExamples := fetchExamples env;
     prompts := prompts env;
     createApp := createApp env;
     update := update env |}.

(** A command line to run the script on: [create my-app --example hello-world],
    a name checker that wants a non-empty name, and a terminal that echoes
    styled text unchanged. *)
Module Sample.

Definition plain (v : JsValue) : string :=
  match v with
  | JString s => s
  | _ => EmptyString
  end.

(** Strips the spaces at both ends. *)
Fixpoint dropSpaces (s : string) : string :=
  match s with
  | String " " rest => dropSpaces rest
  | _ => s
  end.

Definition reverse (s : string) : string :=
  string_of_list_ascii (rev (list_ascii_of_string s)).

Definition trimSpaces (s : string) : string :=
  reverse (dropSpaces (reverse (dropSpaces s))).

Definition installError : JsValue :=
  JObject 200 Ordinary [("command", JString "npm install")] JNull.

Definition env : Env :=
  {| optListExamples := false;
     optUseYarn := false;
     optExample := Some "hello-world";
     optExamplePath := None;
     args0 := Some " my-app ";
     programName := "create";
     cyan := plain;
     green := plain;
     red := plain;
     redBold := plain;
     yellowBold := plain;
     trim := trimSpaces;
     resolve := fun s => "/home/me/" ++ s;
     basename := fun s => substring 9 (String.length s - 9) s;
     validateNpmName := fun name =>
       if String.eqb name EmptyString
       then {| valid := false; problems := Some ["name length must be greater than zero"] |}
       else {| valid := true; problems := None |};
     fetchExamples := Fulfilled ["hello-world"; "cron"];
     prompts := fun _ => Fulfilled [];
     createApp := fun _ => Fulfilled tt;
     update := JNull |}.

(** What [createApp] is called with on this command line. *)
Definition args : CreateArgs :=
  {| appPath := "/home/me/my-app";
     useYarn := false;
     example := "hello-world";
     examplePath := None |}.

(** A command line without a project directory, and nobody to answer. *)
Definition bare : Env := withArgs0 env None.

(** The same, with an installation that fails. *)
Definition failing : Env :=
  {| optListExamples := false;
     optUseYarn := false;
     optExample := Some "hello-world";
     optExamplePath := None;
     args0 := Some "my-app";
     programName := "create";
     cyan := plain;
     green := plain;
     red := plain;
     redBold := plain;
     yellowBold := plain;
     trim := trimSpaces;
     resolve := fun s => "/home/me/" ++ s;
     basename := fun s => substring 9 (String.length s - 9) s;
     validateNpmName := validateNpmName env;
     fetchExamples := Fulfilled ["hello-world"; "cron"];
     prompts := fun _ => Fulfilled [];
     createApp := fun _ => Rejected installError;
     update := JNull |}.

End Sample.

End CreateProject.

(** ** Facts about the language fragment *)


Lemma strictEqualsString_true (v : JsValue) (lit : string) :
  strictEqualsString v lit = true <-> v = JString lit.
Proof.
  destruct v; simpl; split; intros H; try discriminate.
  - apply String.eqb_eq in H. now subst.
  - injection H as ->. apply String.eqb_refl.
Qed.

Lemma strictEqualsString_false (v : JsValue) (lit : string) :
  v <> JString lit -> strictEqualsString v lit = false.
Proof.
  intros Hne. destruct (strictEqualsString v lit) eqn:E; [| reflexivity].
  apply strictEqualsString_true in E. contradiction.
Qed.

Lemma isNotNull_true (v : JsValue) : isNotNull v = true <-> v <> JNull.
Proof.
  destruct v; simpl; split; intros H; try reflexivity; try discriminate.
  now contradiction H.
Qed.

Lemma truthy_string (s : string) :
  truthy (JString s) = false <-> s = EmptyString.
Proof.
  simpl. rewrite negb_false_iff. apply String.eqb_eq.
Qed.

Lemma nullish_absent (v d : JsValue) : absent v -> nullish v d = d.
Proof. intros [-> | ->]; reflexivity. Qed.

Lemma nullish_supplied (v d : JsValue) :
  v <> JUndefined -> v <> JNull -> nullish v d = v.
Proof. intros H1 H2. destruct v; try reflexivity; contradiction. Qed.

(** The capability check decides the contract the specification words. *)
Lemma isValidPayloadConverter_spec (export : JsValue) :
  isValidPayloadConverter export = true <-> structurallyValid export.
Proof.
  unfold isValidPayloadConverter, structurallyValid. simpl forallb.
  rewrite !andb_true_iff, !String.eqb_eq, isNotNull_true.
  tauto.
Qed.

Lemma isValidPayloadConverter_false (export : JsValue) :
  isValidPayloadConverter export = false <-> ~ structurallyValid export.
Proof.
  rewrite <- isValidPayloadConverter_spec.
  destruct (isValidPayloadConverter export); split; intros H;
    try reflexivity; try discriminate.
  now contradiction H.
Qed.

(** ** Facts about the loader *)

Section LoaderFacts.

Variable host : Host.

Ltac run := unfold requirePayloadConverter, journaled, tryCatch, call,
  complete, bind, ret, throw.

(** *** [requirePayloadConverter], one lemma per way through it *)

Lemma require_not_located (path : string) (error : JsValue) (j : Journal) :
  require host path = Threw error ->
  errorCode host error = Returned (JString "MODULE_NOT_FOUND") ->
  requirePayloadConverter host path j
  = (Abrupt (ValueError
               ("Could not find a file at the specified payloadConverterPath: '"
                  ++ path ++ "'.")),
     (j ++ [path])%list).
Proof. intros Hr Hc. run. now rewrite Hr, Hc. Qed.

Lemma require_rethrows (path : string) (error code : JsValue) (j : Journal) :
  require host path = Threw error ->
  errorCode host error = Returned code ->
  code <> JString "MODULE_NOT_FOUND" ->
  requirePayloadConverter host path j
  = (Abrupt (Foreign error), (j ++ [path])%list).
Proof.
  intros Hr Hc Hne. run. rewrite Hr, Hc.
  now rewrite (strictEqualsString_false _ _ Hne).
Qed.

Lemma require_errorCode_throws (path : string) (error error' : JsValue)
    (j : Journal) :
  require host path = Threw error ->
  errorCode host error = Threw error' ->
  requirePayloadConverter host path j
  = (Abrupt (Foreign error'), (j ++ [path])%list).
Proof. intros Hr Hc. run. now rewrite Hr, Hc. Qed.

Lemma resolved_helper_throws (path : string) (module error : JsValue)
    (j : Journal) :
  require host path = Returned module ->
  hasOwnProperty host module "payloadConverter" = Threw error ->
  requirePayloadConverter host path j
  = (Abrupt (Foreign error), (j ++ [path])%list).
Proof. intros Hr Hh. run. now rewrite Hr, Hh. Qed.

Lemma resolved_no_export (path : string) (module named : JsValue)
    (j : Journal) :
  require host path = Returned module ->
  hasOwnProperty host module "payloadConverter" = Returned named ->
  truthy named = false ->
  requirePayloadConverter host path j
  = (Abrupt (ValueError
               ("Module " ++ path
                  ++ " does not have a `payloadConverter` named export")),
     (j ++ [path])%list).
Proof. intros Hr Hh Ht. run. now rewrite Hr, Hh, Ht. Qed.

Lemma resolved_member_throws (path : string) (module named : JsValue)
    (t : Thrown) (j : Journal) :
  require host path = Returned module ->
  hasOwnProperty host module "payloadConverter" = Returned named ->
  truthy named = true ->
  getMember host module "payloadConverter" 0 = Abrupt t ->
  requirePayloadConverter host path j = (Abrupt t, (j ++ [path])%list).
Proof. intros Hr Hh Ht Hm. run. now rewrite Hr, Hh, Ht, Hm. Qed.

Lemma resolved_invalid (path : string) (module export : JsValue)
    (j : Journal) :
  require host path = Returned module ->
  exposes host module export ->
  isValidPayloadConverter export = false ->
  requirePayloadConverter host path j
  = (Abrupt (ValueError
               ("payloadConverter export at " ++ path
                  ++ " must be an object with toPayload and fromPayload methods")),
     (j ++ [path])%list).
Proof.
  intros Hr [[named [Hh Ht]] Hm] Hv. run.
  now rewrite Hr, Hh, Ht, Hm, Hv.
Qed.

Lemma resolved_checked (path : string) (module export : JsValue)
    (c : Completion JsValue) (j : Journal) :
  require host path = Returned module ->
  exposes host module export ->
  isValidPayloadConverter export = true ->
  reread host module = c ->
  requirePayloadConverter host path j = (c, (j ++ [path])%list).
Proof.
  intros Hr [[named [Hh Ht]] Hm] Hv Hre. unfold reread in Hre. run.
  now rewrite Hr, Hh, Ht, Hm, Hv, Hre.
Qed.


(** *** [loadDataConverter], by the test on the path *)

Lemma load_without_path (dataConverter : option DataConverter.t) (j : Journal) :
  truthy (optionalString (pathOf dataConverter)) = false ->
  loadDataConverter host dataConverter j
  = (Normal (defaults host dataConverter), j).
Proof.
  intros Hf. unfold loadDataConverter, defaults, bind, ret.
  destruct (pathOf dataConverter) as [path |]; simpl in Hf |- *.
  - apply negb_false_iff in Hf. now rewrite Hf.
  - reflexivity.
Qed.

Lemma load_with_path (dataConverter : option DataConverter.t) (path : string)
    (j : Journal) :
  pathOf dataConverter = Some path ->
  truthy (JString path) = true ->
  loadDataConverter host dataConverter j
  = match requirePayloadConverter host path j with
    | (Normal converter, j') =>
        (Normal {| LoadedDataConverter.payloadConverter := converter;
                   LoadedDataConverter.payloadCodec :=
                     nullish (codecOf dataConverter) (defaultPayloadCodec host) |},
         j')
    | (Abrupt t, j') => (Abrupt t, j')
    end.
Proof.
  intros Hp Ht. unfold loadDataConverter, bind, ret.
  now rewrite Hp, Ht.
Qed.

(** Loading raises whenever the module fails to resolve or its export fails
    the check. *)
Lemma require_raises_unless_valid (path : string) (j : Journal) :
  ~ loadsValid host path ->
  exists t, requirePayloadConverter host path j = (Abrupt t, (j ++ [path])%list).
Proof.
  intros Hnot.
  destruct (require host path) as [module | error] eqn:Hr.
  - destruct (hasOwnProperty host module "payloadConverter")
      as [named | error] eqn:Hh.
    + destruct (truthy named) eqn:Ht.
      * destruct (getMember host module "payloadConverter" 0)
          as [export | t] eqn:Hm.
        -- destruct (isValidPayloadConverter export) eqn:Hv.
           ++ exfalso. apply Hnot. exists module, export.
              repeat split; try assumption. now exists named.
           ++ eexists. apply (resolved_invalid path module export); try assumption.
              split; [now exists named | assumption].
        -- exists t. now apply (resolved_member_throws path module named).
      * eexists. now apply (resolved_no_export path module named).
    + eexists. now apply (resolved_helper_throws path module error).
  - destruct (errorCode host error) as [code | error'] eqn:Hc.
    + destruct (strictEqualsString code "MODULE_NOT_FOUND") eqn:Hs.
      * apply strictEqualsString_true in Hs. subst code.
        eexists. now apply (require_not_located path error).
      * eexists. apply (require_rethrows path error code); try assumption.
        intros ->. simpl in Hs. discriminate.
    + eexists. now apply (require_errorCode_throws path error error').
Qed.

End LoaderFacts.

(** ** The claims *)

(** C1, as amended.  A [payloadConverter] instance supplied directly is never
    read: without a path the loader returns the default payload converter, the
    journal untouched, and for any configuration the outcome is the same
    whichever instance the configuration carries. *)
Theorem direct_instance_is_ignored (host : Host) (dc : DataConverter.t)
    (instance codec : JsValue) (j : Journal) :
  loadDataConverter host
    (Some {| DataConverter.payloadConverterPath := None;
             DataConverter.payloadConverter := instance;
             DataConverter.payloadCodec := codec |}) j
  = (Normal {| LoadedDataConverter.payloadConverter := defaultPayloadConverter host;
               LoadedDataConverter.payloadCodec :=
                 nullish codec (defaultPayloadCodec host) |}, j)
  /\ loadDataConverter host (Some (withInstance dc instance)) j
     = loadDataConverter host (Some dc) j.
Proof.
  split.
  - now rewrite load_without_path.
  - reflexivity.
Qed.

(** C1 fails as stated: a configuration with the instance [customConverter]
    and no path loads the built-in converter, which is another object. *)
Lemma direct_instance_not_returned :
  loadDataConverter Sample.host
    (Some (Sample.config None Sample.customConverter JUndefined)) []
  = (Normal {| LoadedDataConverter.payloadConverter := Sample.builtinConverter;
               LoadedDataConverter.payloadCodec := Sample.builtinCodec |}, [])
  /\ Sample.builtinConverter <> Sample.customConverter.
Proof.
  split.
  - reflexivity.
  - discriminate.
Qed.

(** C2, as amended.  A module that cannot be located and an export of the
    wrong shape raise errors of one and the same class, [ValueError]; the two
    are told apart by their messages only. *)
Theorem not_found_and_wrong_shape_share_class (host : Host) (p q : string)
    (module export : JsValue) (j k : Journal) :
  notLocated host p ->
  require host q = Returned module ->
  exposes host module export ->
  isValidPayloadConverter export = false ->
  requirePayloadConverter host p j
  = (Abrupt (ValueError (notFoundMessage p)), (j ++ [p])%list)
  /\ requirePayloadConverter host q k
     = (Abrupt (ValueError (invalidShapeMessage q)), (k ++ [q])%list)
  /\ errorClass (ValueError (notFoundMessage p))
     = errorClass (ValueError (invalidShapeMessage q))
  /\ notFoundMessage p <> invalidShapeMessage q.
Proof.
  intros [error [Hr Hc]] Hq Hx Hv. repeat split.
  - now apply (require_not_located host p error).
  - now apply (resolved_invalid host q module export).
  - discriminate.
Qed.

Lemma not_found_and_wrong_shape_share_class_witness :
  requirePayloadConverter Sample.host "./nowhere" []
  = (Abrupt (ValueError (notFoundMessage "./nowhere")), ["./nowhere"])
  /\ requirePayloadConverter Sample.host "./encode-only" []
     = (Abrupt (ValueError (invalidShapeMessage "./encode-only")), ["./encode-only"])
  /\ errorClass (ValueError (notFoundMessage "./nowhere"))
     = errorClass (ValueError (invalidShapeMessage "./encode-only"))
  /\ notFoundMessage "./nowhere" <> invalidShapeMessage "./encode-only".
Proof.
  apply (not_found_and_wrong_shape_share_class Sample.host
           "./nowhere" "./encode-only" Sample.encodeOnlyModule Sample.encodeOnly
           [] []).
  - exists Sample.notFoundError. split; reflexivity.
  - reflexivity.
  - split.
    + exists (JBoolean true). split; reflexivity.
    + reflexivity.
  - reflexivity.
Defined.

(** C2 fails as stated: the error for a path that leads nowhere and the error
    for an export that cannot decode have the same class. *)
Lemma error_classes_coincide :
  exists t1 t2,
    fst (loadDataConverter Sample.host
           (Some (Sample.config (Some "./nowhere") JUndefined JUndefined)) [])
    = Abrupt t1
    /\ fst (loadDataConverter Sample.host
              (Some (Sample.config (Some "./encode-only") JUndefined JUndefined)) [])
       = Abrupt t2
    /\ errorClass t1 = Some "ValueError"
    /\ errorClass t2 = Some "ValueError".
Proof.
  exists (ValueError (notFoundMessage "./nowhere")),
         (ValueError (invalidShapeMessage "./encode-only")).
  repeat split.
Qed.

(** C3.  With no converter and no codec override, an absent configuration
    included, the loader returns the default payload converter paired with
    the default codec. *)
Theorem no_override_gives_defaults (host : Host)
    (dataConverter : option DataConverter.t) (j : Journal) :
  noOverride dataConverter ->
  loadDataConverter host dataConverter j
  = (Normal {| LoadedDataConverter.payloadConverter := defaultPayloadConverter host;
               LoadedDataConverter.payloadCodec := defaultPayloadCodec host |}, j).
Proof.
  intros Hno. rewrite load_without_path.
  - unfold defaults. destruct dataConverter as [dc |]; simpl.
    + destruct Hno as [_ [_ Hcodec]]. now rewrite (nullish_absent _ _ Hcodec).
    + reflexivity.
  - destruct dataConverter as [dc |]; simpl.
    + now destruct Hno as [Hpath _].
    + reflexivity.
Qed.

Lemma no_override_gives_defaults_witness :
  loadDataConverter Sample.host None []
  = (Normal {| LoadedDataConverter.payloadConverter := Sample.builtinConverter;
               LoadedDataConverter.payloadCodec := Sample.builtinCodec |}, [])
  /\ loadDataConverter Sample.host
       (Some (Sample.config None JUndefined JNull)) []
     = (Normal {| LoadedDataConverter.payloadConverter := Sample.builtinConverter;
                  LoadedDataConverter.payloadCodec := Sample.builtinCodec |}, []).
Proof.
  split.
  - apply (no_override_gives_defaults Sample.host None []). exact I.
  - apply (no_override_gives_defaults Sample.host
             (Some (Sample.config None JUndefined JNull)) []).
    simpl. repeat split.
    + now left.
    + now right.
Defined.

(** C4, as amended.  When the configured path is a non-empty string and the
    module behind it fails to resolve or fails validation, the loader raises:
    it returns no [LoadedDataConverter] at all, the default one least of all. *)
Theorem failed_path_never_falls_back (host : Host)
    (dataConverter : option DataConverter.t) (path : string) (j : Journal) :
  pathOf dataConverter = Some path ->
  path <> EmptyString ->
  ~ loadsValid host path ->
  exists t,
    loadDataConverter host dataConverter j = (Abrupt t, (j ++ [path])%list).
Proof.
  intros Hp Hne Hnot.
  destruct (require_raises_unless_valid host path j Hnot) as [t Ht].
  exists t. rewrite (load_with_path host dataConverter path j Hp).
  - now rewrite Ht.
  - destruct (truthy (JString path)) eqn:E; [reflexivity |].
    apply truthy_string in E. contradiction.
Qed.

Lemma failed_path_never_falls_back_witness :
  exists t,
    loadDataConverter Sample.host
      (Some (Sample.config (Some "./top-level") JUndefined JUndefined)) []
    = (Abrupt t, ["./top-level"]).
Proof.
  apply (failed_path_never_falls_back Sample.host
           (Some (Sample.config (Some "./top-level") JUndefined JUndefined))
           "./top-level" []).
  - reflexivity.
  - discriminate.
  - intros [module [export [Hr [[[named [Hh Ht]] _] _]]]].
    vm_compute in Hr. injection Hr as <-.
    vm_compute in Hh. injection Hh as <-.
    discriminate.
Defined.

(** C4 fails as stated: the empty path is supplied explicitly and names no
    module, yet the loader returns the default converter without a word. *)
Lemma empty_path_falls_back :
  require Sample.host EmptyString = Threw Sample.notFoundError
  /\ loadDataConverter Sample.host
       (Some (Sample.config (Some EmptyString) JUndefined JUndefined)) []
     = (Normal {| LoadedDataConverter.payloadConverter :=
                    defaultPayloadConverter Sample.host;
                  LoadedDataConverter.payloadCodec :=
                    defaultPayloadCodec Sample.host |}, []).
Proof. split; reflexivity. Qed.




(** C6.  When the module behind a path cannot be located, the error raised is
    a [ValueError] whose message contains the path exactly as given; the same
    error leaves [loadDataConverter] for every configuration carrying that
    path, provided the path is one the loader tries at all. *)
Theorem not_located_message_contains_path (host : Host) (path : string)
    (j : Journal) :
  notLocated host path ->
  exists message,
    requirePayloadConverter host path j
    = (Abrupt (ValueError message), (j ++ [path])%list)
    /\ occursIn path message
    /\ forall dataConverter,
         pathOf dataConverter = Some path ->
         truthy (JString path) = true ->
         loadDataConverter host dataConverter j
         = (Abrupt (ValueError message), (j ++ [path])%list).
Proof.
  intros [error [Hr Hc]].
  pose proof (require_not_located host path error j Hr Hc) as Hrun.
  exists (notFoundMessage path). repeat split.
  - exact Hrun.
  - exists "Could not find a file at the specified payloadConverterPath: '", "'.".
    reflexivity.
  - intros dataConverter Hp Ht.
    rewrite (load_with_path host dataConverter path j Hp Ht).
    unfold notFoundMessage. now rewrite Hrun.
Qed.

Lemma not_located_message_contains_path_witness :
  exists message,
    requirePayloadConverter Sample.host "../lib/my converter.js" []
    = (Abrupt (ValueError message), ["../lib/my converter.js"])
    /\ occursIn "../lib/my converter.js" message
    /\ forall dataConverter,
         pathOf dataConverter = Some "../lib/my converter.js" ->
         truthy (JString "../lib/my converter.js") = true ->
         loadDataConverter Sample.host dataConverter []
         = (Abrupt (ValueError message), ["../lib/my converter.js"]).
Proof.
  apply (not_located_message_contains_path Sample.host
           "../lib/my converter.js" []).
  exists Sample.notFoundError. split; reflexivity.
Defined.

(** C7, as amended.  The loader does not normalize the codec.  In every
    result it returns, [payloadCodec] is the configured value itself, a list
    staying that list and a single instance staying single, unless the value
    is [undefined] or [null], when it is the default codec.  A result is
    returned whenever the path is absent or falsy, and with a truthy path as
    soon as the module yields a converter. *)
Theorem codec_is_passed_through (host : Host)
    (dataConverter : option DataConverter.t) (j : Journal) :
  (forall r j',
     loadDataConverter host dataConverter j = (Normal r, j') ->
     LoadedDataConverter.payloadCodec r
     = match codecOf dataConverter with
       | JUndefined | JNull => defaultPayloadCodec host
       | _ => codecOf dataConverter
       end)
  /\ (truthy (optionalString (pathOf dataConverter)) = false ->
      exists r, loadDataConverter host dataConverter j = (Normal r, j))
  /\ (forall path converter j',
        pathOf dataConverter = Some path ->
        truthy (JString path) = true ->
        requirePayloadConverter host path j = (Normal converter, j') ->
        exists r, loadDataConverter host dataConverter j = (Normal r, j')).
Proof.
  split; [| split].
  - intros r j' Hrun.
    destruct (truthy (optionalString (pathOf dataConverter))) eqn:Ht.
    + destruct (pathOf dataConverter) as [path |] eqn:Hp; [| discriminate].
      rewrite (load_with_path host dataConverter path j Hp Ht) in Hrun.
      destruct (requirePayloadConverter host path j) as [[converter | t] j''];
        [| discriminate].
      injection Hrun as <- _. reflexivity.
    + rewrite (load_without_path host dataConverter j Ht) in Hrun.
      injection Hrun as <- _. reflexivity.
  - intros Ht. eexists. now apply load_without_path.
  - intros path converter j' Hp Ht Hrun. eexists.
    rewrite (load_with_path host dataConverter path j Hp Ht). now rewrite Hrun.
Qed.

Lemma codec_is_passed_through_witness :
  LoadedDataConverter.payloadCodec
    {| LoadedDataConverter.payloadConverter := Sample.customConverter;
       LoadedDataConverter.payloadCodec := Sample.codecList |}
  = Sample.codecList
  /\ exists r,
       loadDataConverter Sample.host
         (Some (Sample.config (Some "./good") JUndefined Sample.codecList)) []
       = (Normal r, ["./good"]).
Proof.
  destruct (codec_is_passed_through Sample.host
              (Some (Sample.config (Some "./good") JUndefined Sample.codecList)) [])
    as [Hcodec [_ Hpath]].
  split.
  - apply (Hcodec _ ["./good"]). reflexivity.
  - apply (Hpath "./good" Sample.customConverter ["./good"]); reflexivity.
Defined.

(** C7 fails as stated: a codec supplied as a single instance comes back as
    that instance, not as an ordered pipeline holding it. *)
Lemma single_codec_not_normalized :
  loadDataConverter Sample.host
    (Some (Sample.config None JUndefined Sample.gzipCodec)) []
  = (Normal {| LoadedDataConverter.payloadConverter := Sample.builtinConverter;
               LoadedDataConverter.payloadCodec := Sample.gzipCodec |}, [])
  /\ isPipeline Sample.gzipCodec = false.
Proof. split; reflexivity. Qed.

(** C8.  A module that resolves but has no export named [payloadConverter]
    is rejected with an error, whatever else it exports: its own [toPayload]
    and [fromPayload] are never looked at.  When the export test answers with
    a falsy value, the error is the [ValueError] that names the missing
    export. *)
Theorem module_without_named_export_is_rejected (host : Host) (path : string)
    (module : JsValue) (j : Journal) :
  require host path = Returned module ->
  ~ hasNamedExport host module ->
  exists t,
    requirePayloadConverter host path j = (Abrupt t, (j ++ [path])%list)
    /\ (forall dataConverter,
          pathOf dataConverter = Some path ->
          truthy (JString path) = true ->
          loadDataConverter host dataConverter j
          = (Abrupt t, (j ++ [path])%list))
    /\ (forall named,
          hasOwnProperty host module "payloadConverter" = Returned named ->
          t = ValueError (noExportMessage path)).
Proof.
  intros Hr Hno.
  assert (Hrun : exists t,
             requirePayloadConverter host path j = (Abrupt t, (j ++ [path])%list)
             /\ (forall named,
                   hasOwnProperty host module "payloadConverter" = Returned named ->
                   t = ValueError (noExportMessage path))).
  { destruct (hasOwnProperty host module "payloadConverter")
      as [named | error] eqn:Hh.
    - destruct (truthy named) eqn:Ht.
      + exfalso. apply Hno. now exists named.
      + exists (ValueError (noExportMessage path)). split.
        * now apply (resolved_no_export host path module named).
        * reflexivity.
    - exists (Foreign error). split.
      + now apply (resolved_helper_throws host path module error).
      + discriminate. }
  destruct Hrun as [t [Hrun Hkind]].
  exists t. repeat split; try assumption.
  intros dataConverter Hp Ht.
  rewrite (load_with_path host dataConverter path j Hp Ht). now rewrite Hrun.
Qed.

Lemma module_without_named_export_is_rejected_witness :
  isValidPayloadConverter Sample.topLevelModule = true
  /\ exists t,
       requirePayloadConverter Sample.host "./top-level" []
       = (Abrupt t, ["./top-level"])
       /\ (forall dataConverter,
             pathOf dataConverter = Some "./top-level" ->
             truthy (JString "./top-level") = true ->
             loadDataConverter Sample.host dataConverter []
             = (Abrupt t, ["./top-level"]))
       /\ (forall named,
             hasOwnProperty Sample.host Sample.topLevelModule "payloadConverter"
             = Returned named ->
             t = ValueError (noExportMessage "./top-level")).
Proof.
  split.
  - reflexivity.
  - apply (module_without_named_export_is_rejected Sample.host "./top-level"
             Sample.topLevelModule []).
    + reflexivity.
    + intros [named [Hh Ht]]. vm_compute in Hh. injection Hh as <-.
      discriminate.
Defined.

(** C9.  A path that is falsy, which for a string means empty, is treated
    like a path that is absent: nothing is handed to [require] (the journal is
    unchanged), no error is raised, the result holds the default payload
    converter, and it is the result of the same configuration without the
    path. *)
Theorem falsy_path_is_treated_as_absent (host : Host)
    (dataConverter : option DataConverter.t) (j : Journal) :
  truthy (optionalString (pathOf dataConverter)) = false ->
  (pathOf dataConverter = None \/ pathOf dataConverter = Some EmptyString)
  /\ loadDataConverter host dataConverter j
     = (Normal {| LoadedDataConverter.payloadConverter :=
                    defaultPayloadConverter host;
                  LoadedDataConverter.payloadCodec :=
                    nullish (codecOf dataConverter) (defaultPayloadCodec host) |},
        j)
  /\ loadDataConverter host dataConverter j
     = loadDataConverter host (withoutPath dataConverter) j.
Proof.
  intros Hf. split; [| split].
  - destruct (pathOf dataConverter) as [path |]; [right | now left].
    apply truthy_string in Hf. now subst.
  - now apply load_without_path.
  - rewrite (load_without_path host dataConverter j Hf).
    rewrite (load_without_path host (withoutPath dataConverter) j).
    + now destruct dataConverter.
    + now destruct dataConverter.
Qed.

Lemma falsy_path_is_treated_as_absent_witness :
  require Sample.host EmptyString = Threw Sample.notFoundError
  /\ loadDataConverter Sample.host
       (Some (Sample.config (Some EmptyString) JUndefined Sample.gzipCodec))
       ["./earlier"]
     = (Normal {| LoadedDataConverter.payloadConverter := Sample.builtinConverter;
                  LoadedDataConverter.payloadCodec := Sample.gzipCodec |},
        ["./earlier"]).
Proof.
  split.
  - reflexivity.
  - destruct (falsy_path_is_treated_as_absent Sample.host
                (Some (Sample.config (Some EmptyString) JUndefined Sample.gzipCodec))
                ["./earlier"]) as [_ [Hload _]].
    + reflexivity.
    + exact Hload.
Defined.

(** C10.  When [require] throws an error whose code is not
    ['MODULE_NOT_FOUND'], that very error leaves [requirePayloadConverter]
    and [loadDataConverter]: it is neither wrapped in a [ValueError] nor
    replaced by one. *)
Theorem other_errors_propagate_unchanged (host : Host) (path : string)
    (error code : JsValue) (j : Journal) :
  require host path = Threw error ->
  errorCode host error = Returned code ->
  code <> JString "MODULE_NOT_FOUND" ->
  requirePayloadConverter host path j
  = (Abrupt (Foreign error), (j ++ [path])%list)
  /\ forall dataConverter,
       pathOf dataConverter = Some path ->
       truthy (JString path) = true ->
       loadDataConverter host dataConverter j
       = (Abrupt (Foreign error), (j ++ [path])%list).
Proof.
  intros Hr Hc Hne.
  pose proof (require_rethrows host path error code j Hr Hc Hne) as Hrun.
  split.
  - exact Hrun.
  - intros dataConverter Hp Ht.
    rewrite (load_with_path host dataConverter path j Hp Ht). now rewrite Hrun.
Qed.

Lemma other_errors_propagate_unchanged_witness :
  loadDataConverter Sample.host
    (Some (Sample.config (Some "./throws") JUndefined JUndefined)) []
  = (Abrupt (Foreign Sample.evaluationError), ["./throws"]).
Proof.
  destruct (other_errors_propagate_unchanged Sample.host "./throws"
              Sample.evaluationError JUndefined []) as [_ Hload].
  - reflexivity.
  - reflexivity.
  - discriminate.
  - apply Hload; reflexivity.
Defined.

(** ** Further properties of the loader *)

Lemma getMember_abrupt (host : Host) (v : JsValue) (key : string) (n : nat)
    (t : Thrown) :
  getMember host v key n = Abrupt t ->
  (t = TypeError key /\ absent v)
  \/ (exists error, t = Foreign error /\ accessor host v key n = Some (Threw error)).
Proof.
  destruct v; simpl; intros H; try discriminate.
  - injection H as <-. left. split; [reflexivity | now left].
  - injection H as <-. left. split; [reflexivity | now right].
  - destruct (accessor host _ key n) as [[got | error] |]; try discriminate.
    injection H as <-. right. now exists error.
Qed.

Lemma getMember_no_value_error (host : Host) (v : JsValue) (key : string)
    (n : nat) (message : string) :
  getMember host v key n <> Abrupt (ValueError message).
Proof.
  intros H. destruct (getMember_abrupt host v key n _ H) as [[E _] | [error [E _]]];
    discriminate.
Qed.

(** Every run of [requirePayloadConverter] takes one of the eight ways, and
    has handed [path] to [require] once when it ends. *)
Lemma requirePayloadConverter_cases (host : Host) (path : string) (j : Journal) :
  exists c,
    requirePayloadConverter host path j = (c, (j ++ [path])%list)
    /\ RequireCase host path c.
Proof.
  destruct (require host path) as [module | error] eqn:Hr.
  - destruct (hasOwnProperty host module "payloadConverter")
      as [named | error] eqn:Hh.
    + destruct (truthy named) eqn:Ht.
      * assert (Hnamed : hasNamedExport host module) by now exists named.
        destruct (getMember host module "payloadConverter" 0)
          as [export | t] eqn:Hm.
        -- assert (Hx : exposes host module export) by now split.
           destruct (isValidPayloadConverter export) eqn:Hv.
           ++ exists (reread host module). split.
              ** now apply (resolved_checked host path module export).
              ** now apply (CaseChecked host path module export).
           ++ eexists. split.
              ** now apply (resolved_invalid host path module export).
              ** now apply (CaseInvalidShape host path module export).
        -- exists (Abrupt t). split.
           ++ now apply (resolved_member_throws host path module named).
           ++ now apply (CaseReadFailed host path module).
      * eexists. split.
        -- now apply (resolved_no_export host path module named).
        -- now apply (CaseNoExport host path module named).
    + eexists. split.
      * now apply (resolved_helper_throws host path module error).
      * now apply (CaseHelperThrew host path module error).
  - destruct (errorCode host error) as [code | error'] eqn:Hc.
    + destruct (strictEqualsString code "MODULE_NOT_FOUND") eqn:Hs.
      * apply strictEqualsString_true in Hs. subst code.
        eexists. split.
        -- now apply (require_not_located host path error).
        -- apply CaseNotLocated. now exists error.
      * assert (Hne : code <> JString "MODULE_NOT_FOUND").
        { intros ->. simpl in Hs. discriminate. }
        eexists. split.
        -- now apply (require_rethrows host path error code).
        -- now apply (CaseRethrown host path error code).
    + eexists. split.
      * now apply (require_errorCode_throws host path error error').
      * now apply (CaseCodeThrew host path error error').
Qed.

Lemma requirePayloadConverter_inv (host : Host) (path : string) (j j' : Journal)
    (c : Completion JsValue) :
  requirePayloadConverter host path j = (c, j') ->
  RequireCase host path c /\ j' = (j ++ [path])%list.
Proof.
  intros Hrun.
  destruct (requirePayloadConverter_cases host path j) as [c0 [Hc0 Hcase]].
  rewrite Hc0 in Hrun. injection Hrun as <- <-. now split.
Qed.

Lemma messages_differ (p q : string) :
  notFoundMessage p <> invalidShapeMessage q
  /\ notFoundMessage p <> noExportMessage q
  /\ invalidShapeMessage p <> noExportMessage q.
Proof. repeat split; discriminate. Qed.

Lemma loadDataConverter_inv (host : Host)
    (dataConverter : option DataConverter.t) (j j' : Journal)
    (c : Completion LoadedDataConverter.t) :
  loadDataConverter host dataConverter j = (c, j') ->
  (truthy (optionalString (pathOf dataConverter)) = false
   /\ c = Normal (defaults host dataConverter) /\ j' = j)
  \/ (exists path c0,
        pathOf dataConverter = Some path
        /\ truthy (JString path) = true
        /\ requirePayloadConverter host path j = (c0, j')
        /\ c = match c0 with
               | Normal converter =>
                   Normal {| LoadedDataConverter.payloadConverter := converter;
                             LoadedDataConverter.payloadCodec :=
                               nullish (codecOf dataConverter)
                                 (defaultPayloadCodec host) |}
               | Abrupt t => Abrupt t
               end).
Proof.
  intros Hrun.
  destruct (truthy (optionalString (pathOf dataConverter))) eqn:Ht.
  - right. destruct (pathOf dataConverter) as [path |] eqn:Hp; [| discriminate].
    rewrite (load_with_path host dataConverter path j Hp Ht) in Hrun.
    destruct (requirePayloadConverter host path j) as [c0 j0] eqn:Hreq.
    exists path, c0. destruct c0; injection Hrun as <- <-; now repeat split.
  - left. rewrite (load_without_path host dataConverter j Ht) in Hrun.
    injection Hrun as <- <-. now repeat split.
Qed.

Lemma load_journal_with_path (host : Host)
    (dataConverter : option DataConverter.t) (path : string) (j : Journal) :
  pathOf dataConverter = Some path ->
  truthy (JString path) = true ->
  snd (loadDataConverter host dataConverter j) = (j ++ [path])%list.
Proof.
  intros Hp Ht. rewrite (load_with_path host dataConverter path j Hp Ht).
  destruct (requirePayloadConverter_cases host path j) as [c [-> _]].
  now destruct c.
Qed.

(** X1.  Whatever its outcome, [requirePayloadConverter] hands the path it
    was given to [require] exactly once, and asks for no other module. *)
Theorem require_hands_path_once (host : Host) (path : string) (j : Journal) :
  snd (requirePayloadConverter host path j) = (j ++ [path])%list.
Proof.
  destruct (requirePayloadConverter_cases host path j) as [c [Hrun _]].
  now rewrite Hrun.
Qed.

(** X2.  [loadDataConverter] asks for at most one module: the configured
    path when it is truthy, nothing otherwise, whether loading then succeeds
    or fails. *)
Theorem load_requires_only_the_configured_path (host : Host)
    (dataConverter : option DataConverter.t) (j : Journal) :
  snd (loadDataConverter host dataConverter j)
  = match pathOf dataConverter with
    | Some path => if truthy (JString path) then (j ++ [path])%list else j
    | None => j
    end.
Proof.
  destruct (pathOf dataConverter) as [path |] eqn:Hp.
  - destruct (truthy (JString path)) eqn:Ht.
    + now apply load_journal_with_path.
    + rewrite load_without_path; [reflexivity |]. now rewrite Hp.
  - rewrite load_without_path; [reflexivity |]. now rewrite Hp.
Qed.





(** X5.  A [ValueError] out of [requirePayloadConverter] tells its cause by
    its message: the not-found message means [require] failed with code
    ['MODULE_NOT_FOUND'], the shape message means the module resolved and its
    export failed the capability check, the export message means the module
    resolved and the export test answered with a falsy value.  No other
    [ValueError] is raised. *)
Theorem value_error_tells_the_cause (host : Host) (path message : string)
    (j j' : Journal) :
  requirePayloadConverter host path j = (Abrupt (ValueError message), j') ->
  (message = notFoundMessage path /\ notLocated host path)
  \/ (message = invalidShapeMessage path
      /\ exists module export,
           require host path = Returned module
           /\ exposes host module export
           /\ ~ structurallyValid export)
  \/ (message = noExportMessage path
      /\ exists module named,
           require host path = Returned module
           /\ hasOwnProperty host module "payloadConverter" = Returned named
           /\ truthy named = false).
Proof.
  intros Hrun.
  destruct (requirePayloadConverter_inv host path j j' _ Hrun) as [Hcase _].
  inversion Hcase
    as [module export c Hr Hx Hv Hre | module export Hr Hx Hv
        | module t Hr Hn Hm | module named Hr Hh Ht | | Hnl | |]; subst.
  - now apply getMember_no_value_error in Hre.
  - right; left. split; [reflexivity |]. exists module, export.
    repeat split; try assumption; try apply Hx.
    now apply isValidPayloadConverter_false.
  - now apply getMember_no_value_error in Hm.
  - right; right. split; [reflexivity |]. now exists module, named.
  - left. now split.
Qed.

Lemma value_error_tells_the_cause_witness :
  ("Module ./top-level does not have a `payloadConverter` named export"
   = notFoundMessage "./top-level"
   /\ notLocated Sample.host "./top-level")
  \/ ("Module ./top-level does not have a `payloadConverter` named export"
      = invalidShapeMessage "./top-level"
      /\ exists module export,
           require Sample.host "./top-level" = Returned module
           /\ exposes Sample.host module export
           /\ ~ structurallyValid export)
  \/ ("Module ./top-level does not have a `payloadConverter` named export"
      = noExportMessage "./top-level"
      /\ exists module named,
           require Sample.host "./top-level" = Returned module
           /\ hasOwnProperty Sample.host module "payloadConverter" = Returned named
           /\ truthy named = false).
Proof.
  apply (value_error_tells_the_cause Sample.host "./top-level" _ [] ["./top-level"]).
  reflexivity.
Defined.

(** X6.  Every [ValueError] that [requirePayloadConverter] raises carries the
    path in its message exactly as it was given. *)
Theorem every_value_error_names_the_path (host : Host) (path message : string)
    (j j' : Journal) :
  requirePayloadConverter host path j = (Abrupt (ValueError message), j') ->
  occursIn path message.
Proof.
  intros Hrun.
  destruct (requirePayloadConverter_inv host path j j' _ Hrun) as [Hcase _].
  inversion Hcase
    as [module export c Hr Hx Hv Hre | | module t Hr Hn Hm | | | | |]; subst.
  - now apply getMember_no_value_error in Hre.
  - now exists "payloadConverter export at ",
               " must be an object with toPayload and fromPayload methods".
  - now apply getMember_no_value_error in Hm.
  - now exists "Module ", " does not have a `payloadConverter` named export".
  - now exists "Could not find a file at the specified payloadConverterPath: '", "'.".
Qed.

Lemma every_value_error_names_the_path_witness :
  occursIn "./encode-only" (invalidShapeMessage "./encode-only").
Proof.
  apply (every_value_error_names_the_path Sample.host "./encode-only" _
           [] ["./encode-only"]).
  reflexivity.
Defined.



(** X8.  Methods count wherever the prototype chain provides them: an object
    that is not callable and has no own [toPayload] and no own [fromPayload]
    passes the check exactly when both members read as functions on its
    prototype. *)
Theorem inherited_methods_count (ref : nat) (kind : ObjectKind)
    (own : list (string * JsValue)) (proto : JsValue) :
  kind <> Callable ->
  ownProperty own "toPayload" = None ->
  ownProperty own "fromPayload" = None ->
  isValidPayloadConverter (JObject ref kind own proto)
  = String.eqb (typeof (getProp proto "toPayload")) "function"
    && String.eqb (typeof (getProp proto "fromPayload")) "function".
Proof.
  intros Hk Hto Hfrom. unfold isValidPayloadConverter.
  cbn [forallb getProp]. rewrite Hto, Hfrom.
  destruct kind; try contradiction; cbn [typeof isNotNull];
    rewrite String.eqb_refl; cbn [andb]; now rewrite andb_true_r.
Qed.

(** X9.  An own member shadows an inherited one: an object whose own
    [toPayload] or own [fromPayload] does not read as a function fails the
    check, whatever its prototype provides. *)
Theorem own_member_shadows_prototype (ref : nat) (kind : ObjectKind)
    (own : list (string * JsValue)) (proto : JsValue) (method : string)
    (v : JsValue) :
  method = "toPayload" \/ method = "fromPayload" ->
  ownProperty own method = Some v ->
  typeof v <> "function" ->
  isValidPayloadConverter (JObject ref kind own proto) = false.
Proof.
  intros Hm Hown Hty.
  apply isValidPayloadConverter_false. intros [_ [_ [Hto Hfrom]]].
  destruct Hm as [-> | ->]; cbn [getProp] in Hto, Hfrom;
    rewrite Hown in *; contradiction.
Qed.

Lemma inherited_methods_count_witness :
  isValidPayloadConverter Sample.classConverter = true.
Proof.
  apply (inherited_methods_count 20 Ordinary []
           (JObject 21 Ordinary
              [("toPayload", Sample.fn 22); ("fromPayload", Sample.fn 23)] JNull)).
  - discriminate.
  - reflexivity.
  - reflexivity.
Defined.

Lemma own_member_shadows_prototype_witness :
  isValidPayloadConverter MoreSamples.shadowingConverter = false.
Proof.
  apply (own_member_shadows_prototype 110 Ordinary
           [("toPayload", JString "not a method")] _ "toPayload"
           (JString "not a method")).
  - now left.
  - reflexivity.
  - discriminate.
Defined.

(** X10.  [loadDataConverter] raises exactly what [requirePayloadConverter]
    raises for a truthy path, the same value after the same single request,
    and raises nothing of its own: without a truthy path it cannot fail. *)
Theorem load_raises_what_require_raises (host : Host)
    (dataConverter : option DataConverter.t) (t : Thrown) (j j' : Journal) :
  loadDataConverter host dataConverter j = (Abrupt t, j')
  <-> exists path,
        pathOf dataConverter = Some path
        /\ truthy (JString path) = true
        /\ requirePayloadConverter host path j = (Abrupt t, j').
Proof.
  split.
  - intros Hrun.
    destruct (loadDataConverter_inv host dataConverter j j' _ Hrun)
      as [[_ [Hc _]] | [path [c0 [Hp [Ht [Hreq Hc]]]]]]; [discriminate |].
    exists path. destruct c0 as [converter | t0]; [discriminate |].
    injection Hc as ->. now repeat split.
  - intros [path [Hp [Ht Hreq]]].
    rewrite (load_with_path host dataConverter path j Hp Ht). now rewrite Hreq.
Qed.



(** X12.  The loader keeps nothing between calls: loading the same
    configuration again asks [require] for the module again. *)
Theorem loading_is_not_memoized (host : Host)
    (dataConverter : option DataConverter.t) (path : string) (j : Journal) :
  pathOf dataConverter = Some path ->
  truthy (JString path) = true ->
  snd (loadDataConverter host dataConverter
         (snd (loadDataConverter host dataConverter j)))
  = (j ++ [path; path])%list.
Proof.
  intros Hp Ht.
  rewrite !(load_journal_with_path host dataConverter path) by assumption.
  now rewrite <- app_assoc.
Qed.

Lemma loading_is_not_memoized_witness :
  snd (loadDataConverter Sample.host
         (Some (Sample.config (Some "./class") JUndefined JUndefined))
         (snd (loadDataConverter Sample.host
                 (Some (Sample.config (Some "./class") JUndefined JUndefined))
                 [])))
  = ["./class"; "./class"].
Proof.
  apply (loading_is_not_memoized Sample.host
           (Some (Sample.config (Some "./class") JUndefined JUndefined))
           "./class" []); reflexivity.
Defined.

(** X13.  The codec setting plays no part in loading the converter: with
    another codec the same module is requested, the same error is raised or
    the same converter is returned; only the [payloadCodec] of the result
    follows the setting. *)
Theorem codec_does_not_affect_converter (host : Host) (dc : DataConverter.t)
    (codec : JsValue) (j : Journal) :
  loadDataConverter host (Some (withCodec dc codec)) j
  = match loadDataConverter host (Some dc) j with
    | (Normal r, j') =>
        (Normal {| LoadedDataConverter.payloadConverter :=
                     LoadedDataConverter.payloadConverter r;
                   LoadedDataConverter.payloadCodec :=
                     nullish codec (defaultPayloadCodec host) |}, j')
    | (Abrupt t, j') => (Abrupt t, j')
    end.
Proof.
  unfold loadDataConverter, bind, ret. cbn [pathOf codecOf withCodec
    DataConverter.payloadConverterPath DataConverter.payloadCodec].
  destruct (DataConverter.payloadConverterPath dc) as [path |].
  - destruct (truthy (JString path)).
    + now destruct (requirePayloadConverter host path j) as [[converter | t] j'].
    + reflexivity.
  - reflexivity.
Qed.
(** ** Facts about the command line script *)

Module CreateProjectFacts.

Import CreateProject.

Section Facts.

Variable env : Env.

Lemma forEachProblem_run (ps : list string) (tr : Trace) :
  forEachProblem env ps tr = (Returns tt, (tr ++ map (problemLine env) ps)%list).
Proof.
  revert tr. induction ps as [| p rest IH]; intros tr.
  - cbn. now rewrite app_nil_r.
  - cbn [forEachProblem map]. unfold bind, emit. rewrite IH.
    now rewrite <- app_assoc.
Qed.

Lemma notifyUpdate_run (E : Type) (tr : Trace) :
  @notifyUpdate env E tr = (Exits None, (tr ++ updateNotice env)%list).
Proof.
  unfold notifyUpdate, updateNotice, tryCatch, bind, await, ret, exit,
    consoleLog, emit.
  destruct (truthy (latestOf (update env))).
  - now rewrite <- !app_assoc.
  - now rewrite app_nil_r.
Qed.

Lemma no_create_among_problems (ps : list string) (args : CreateArgs) :
  ~ In (CreateApp args) (map (problemLine env) ps).
Proof.
  intros H. apply in_map_iff in H. destruct H as [p [Hp _]]. discriminate.
Qed.

End Facts.

Ltac open_run H :=
  unfold run, askProjectPath, askExample, explainMissingDirectory,
    explainMissingExample, await, consoleError, consoleLog in H;
  unfold bind, ret, emit, exit, throw in H.

Ltac split_run H :=
  repeat (cbv beta iota in H; cbn [app fst snd] in H;
          match type of H with
          | context [forEachProblem ?e ?ps ?tr] =>
              rewrite (forEachProblem_run e ps tr) in H
          | context [match ?x with _ => _ end] =>
              lazymatch x with
              | context [match _ with _ => _ end] => fail
              | _ => destruct x eqn:?
              end
          | context [if ?x then _ else _] =>
              lazymatch x with
              | context [match _ with _ => _ end] => fail
              | context [if _ then _ else _] => fail
              | _ => destruct x eqn:?
              end
          end).

Ltac close_run H := injection H as <- <-.

(** Splits a membership in a trace into its cases. *)
Ltac split_in H :=
  repeat rewrite in_app_iff in H; cbn [In] in H;
  repeat match type of H with
         | _ \/ _ => destruct H as [H | H]
         end.

Lemma falsy_false (v : option string) :
  falsy v = false <-> exists s, v = Some s /\ s <> EmptyString.
Proof.
  unfold falsy. rewrite negb_false_iff. split.
  - destruct v as [s |]; [| discriminate]. intros H. exists s. split; [reflexivity |].
    intros ->. discriminate.
  - intros [s [-> Hne]]. destruct (truthy (optionalString (Some s))) eqn:E;
      [reflexivity |].
    apply truthy_string in E. contradiction.
Qed.

Lemma theString_nonempty (v : option string) :
  falsy v = false -> theString v <> EmptyString.
Proof.
  intros H. apply falsy_false in H. destruct H as [s [-> Hne]]. exact Hne.
Qed.

Lemma falsy_some (s : string) : falsy (Some s) = false -> s <> EmptyString.
Proof. apply theString_nonempty. Qed.

Ltac nonempty :=
  first [apply falsy_some; assumption | apply theString_nonempty; assumption].

Lemma filter_problems (env : Env) (f : Event -> bool) (ps : list string) :
  (forall args, f (ConsoleError args) = false) ->
  filter f (map (problemLine env) ps) = [].
Proof.
  intros Hf. induction ps as [| p rest IH]; [reflexivity |].
  cbn [map filter]. unfold problemLine at 1. now rewrite Hf.
Qed.

(** X14.  [run] calls [createApp] only for a project it has checked: not in
    listing mode, with the resolved form of a non-empty project path whose
    base name [validateNpmName] accepts, with the trimmed form of a non-empty
    example, with the yarn flag and the trimmed example path of the command
    line. *)
Theorem create_app_only_for_checked_project (env : Env)
    (ending : Ending JsValue unit) (tr : Trace) (args : CreateArgs) :
  run env [] = (ending, tr) ->
  In (CreateApp args) tr ->
  optListExamples env = false
  /\ valid (validateNpmName env (basename env (appPath args))) = true
  /\ (exists p, p <> EmptyString /\ appPath args = resolve env p)
  /\ (exists e, e <> EmptyString /\ example args = trim env e)
  /\ useYarn args = optUseYarn env
  /\ examplePath args = option_map (trim env) (optExamplePath env).
Proof.
  intros Hrun Hin. open_run Hrun. split_run Hrun; close_run Hrun.
  all: split_in Hin; try discriminate; try contradiction.
  all: try (exfalso; eapply no_create_among_problems; eassumption).
  all: injection Hin as <-.
  all: cbn [appPath example useYarn examplePath createArgs theString] in *.
  all: repeat split; try reflexivity; try (now apply negb_false_iff).
  all: eexists; (split; [| reflexivity]); nonempty.
Qed.

(** X15.  [run] calls [createApp] at most once, as the last thing it does:
    it then returns when the installation succeeds and throws the reason of
    the installation when it fails, and never exits the process. *)
Theorem create_app_comes_last_and_once (env : Env)
    (ending : Ending JsValue unit) (tr : Trace) (args : CreateArgs) :
  run env [] = (ending, tr) ->
  In (CreateApp args) tr ->
  filter isCreate tr = [CreateApp args]
  /\ last tr FetchExamples = CreateApp args
  /\ ((ending = Returns tt /\ createApp env args = Fulfilled tt)
      \/ exists reason,
           ending = Throws reason /\ createApp env args = Rejected reason).
Proof.
  intros Hrun Hin. open_run Hrun. split_run Hrun; close_run Hrun.
  all: split_in Hin; try discriminate; try contradiction.
  all: try (exfalso; eapply no_create_among_problems; eassumption).
  all: injection Hin as <-.
  all: cbn [theString] in *.
  all: repeat split; try reflexivity.
  all: repeat match goal with u : unit |- _ => destruct u end.
  all: first [ left; split; [reflexivity | assumption]
             | right; eexists; split; [reflexivity | eassumption] ].
Qed.

(** X16.  When [run] ends the process, the exit code is 1, something was
    printed with [console.error], [createApp] has not been called, and the
    script was not in listing mode. *)
Theorem run_exits_with_one_before_creating (env : Env) (code : option Z)
    (tr : Trace) :
  run env [] = (Exits code, tr) ->
  code = Some 1%Z
  /\ filter isCreate tr = []
  /\ existsb isConsoleError tr = true
  /\ optListExamples env = false.
Proof.
  intros Hrun. open_run Hrun. split_run Hrun; try discriminate.
  all: injection Hrun as <- <-.
  all: cbn [filter existsb isCreate isConsoleError orb].
  all: rewrite ?filter_app, ?filter_problems by reflexivity.
  all: repeat split; reflexivity.
Qed.

(** X17.  A command line that names a project directory and an example is
    served without a question and without fetching the list of examples. *)
Theorem complete_command_line_needs_nobody (env : Env)
    (ending : Ending JsValue unit) (tr : Trace) :
  optListExamples env = false ->
  falsy (givenPath env) = false ->
  falsy (optExample env) = false ->
  run env [] = (ending, tr) ->
  filter (fun e => isPrompt e || isFetch e) tr = [].
Proof.
  unfold givenPath. intros Hlist Hpath Hexample Hrun.
  open_run Hrun. rewrite Hlist, Hpath, Hexample in Hrun.
  split_run Hrun; close_run Hrun.
  all: cbn [filter isPrompt isFetch orb].
  all: rewrite ?filter_app, ?filter_problems by reflexivity.
  all: reflexivity.
Qed.

(** X18.  The [validate] callback of the project-name prompt answers [true]
    exactly when [validateNpmName] accepts the base name of the resolved
    input; otherwise it answers a string that starts with
    ['Invalid project name: '], followed by the first problem reported, or by
    ['undefined'] when none is reported. *)
Theorem validate_answers_true_or_message (env : Env) (name : string) :
  let validation := validateNpmName env (basename env (resolve env name)) in
  (validateName env name = JBoolean true <-> valid validation = true)
  /\ (valid validation = false ->
      exists detail,
        validateName env name = JString ("Invalid project name: " ++ detail)
        /\ match problems validation with
           | Some (p :: _) => detail = p
           | _ => detail = "undefined"
           end).
Proof.
  cbv zeta. unfold validateName, plusOptional.
  destruct (valid (validateNpmName env (basename env (resolve env name)))).
  - split; [tauto | discriminate].
  - split; [split; discriminate |]. intros _.
    destruct (problems (validateNpmName env (basename env (resolve env name))))
      as [[| p ps] |]; eexists; split; reflexivity.
Qed.

(** X19.  After a failure of [run], an awaited promise rejected with a
    reason other than [undefined] and [null], the chain prints
    ['Aborting installation.'] and then ends the process inside
    [notifyUpdate], by [process.exit()] without a code. *)
Theorem failed_run_exits_without_code (env : Env) (reason : JsValue)
    (tr : Trace) :
  run env [] = (Throws reason, tr) ->
  reason <> JUndefined ->
  reason <> JNull ->
  exists lines,
    main env [] = (Exits None, (tr ++ lines ++ updateNotice env)%list)
    /\ In (ConsoleLog [JString "Aborting installation."]) lines
    /\ filter isCreate lines = [].
Proof.
  intros Hrun Hu Hn. unfold main, tryCatch, bind at 1. rewrite Hrun.
  unfold commandOf, bind, consoleLog, emit, ret, exit.
  destruct reason; try contradiction.
  all: match goal with
       | |- context [truthy ?c] => destruct (truthy c)
       end.
  all: rewrite notifyUpdate_run.
  all: lazymatch goal with
       | |- exists lines,
              (_, (((((?t ++ [?a]) ++ [?b]) ++ [?c]) ++ [?d]) ++ [?e]) ++ _)%list
              = _ /\ _ =>
           exists [a; b; c; d; e]
       | |- exists lines,
              (_, ((((?t ++ [?a]) ++ [?b]) ++ [?c]) ++ [?d]) ++ _)%list
              = _ /\ _ =>
           exists [a; b; c; d]
       end.
  all: split; [now rewrite <- !app_assoc | split; [cbn [In]; tauto | reflexivity]].
Qed.

Lemma run_exit_code (env : Env) (code : option Z) (tr : Trace) :
  run env [] = (Exits code, tr) -> code = Some 1%Z.
Proof.
  intros Hrun. open_run Hrun. split_run Hrun; try discriminate.
  all: now injection Hrun as <- _.
Qed.

(** X20.  The chain never returns.  It ends in one of three ways: by one of
    the calls [process.exit(1)] of [run], with nothing done after it; by the
    [process.exit()] of [notifyUpdate], without a code, after [run] returned
    or threw a reason other than [undefined] and [null]; or, when [run]
    threw [undefined] or [null], by the [TypeError] that reading
    [reason.command] raises in the handler, which nobody catches.  The call
    [process.exit(1)] that closes the handler is never made. *)
Theorem chain_ends_by_exit_or_type_error (env : Env) (tr : Trace) :
  (main env [] = (Exits (Some 1%Z), tr) <-> run env [] = (Exits (Some 1%Z), tr))
  /\ forall ending,
       main env [] = (ending, tr) ->
       (ending = Exits (Some 1%Z) /\ run env [] = (Exits (Some 1%Z), tr))
       \/ (ending = Exits None
           /\ exists tr0,
                run env [] = (Returns tt, tr0)
                \/ exists reason,
                     run env [] = (Throws reason, tr0) /\ ~ absent reason)
       \/ (ending = Throws (TypeError "command")
           /\ exists reason tr0,
                run env [] = (Throws reason, tr0) /\ absent reason).
Proof.
  remember (main env []) as m eqn:Hm.
  unfold main, tryCatch in Hm. unfold bind at 1 in Hm.
  destruct (run env []) as [[[] | reason | code] tr0] eqn:Hrun;
    cbv beta iota in Hm.
  - rewrite notifyUpdate_run in Hm. subst m. split.
    + split; intros H; discriminate H.
    + intros ending H. injection H as <- _. right; left.
      split; [reflexivity |]. exists tr0. now left.
  - unfold commandOf, bind, consoleLog, emit, ret, exit, throw in Hm.
    destruct reason;
      try match type of Hm with
          | context [truthy ?c] => destruct (truthy c)
          end;
      rewrite ?notifyUpdate_run in Hm; subst m;
      (split; [split; intros H; discriminate H |]);
      intros ending H; injection H as <- _.
    all: first
      [ right; right; split; [reflexivity |];
        eexists; exists tr0; split; [reflexivity |];
        first [now left | now right]
      | right; left; split; [reflexivity |];
        exists tr0; right; eexists; split; [reflexivity |];
        intros [E | E]; discriminate E ].
  - subst m. pose proof (run_exit_code env code tr0 Hrun) as ->. split.
    + split; intros H; injection H as ->; reflexivity.
    + intros ending H. injection H as <- <-. left. now split.
Qed.

(** X21.  A first argument that is blank, one that [trim] empties, is
    handled like a first argument that is missing. *)
Theorem blank_argument_counts_as_missing (env : Env) (arg : string) :
  trim env arg = EmptyString ->
  run (withArgs0 env (Some arg)) [] = run (withArgs0 env None) [].
Proof.
  intros Hblank.
  unfold run, askProjectPath, explainMissingDirectory, await, consoleError,
    consoleLog.
  unfold bind, ret, emit, exit, throw.
  cbn [withArgs0 optListExamples args0 trim option_map prompts].
  rewrite Hblank.
  change (textQuestion (withArgs0 env (Some arg))) with (textQuestion env).
  change (textQuestion (withArgs0 env None)) with (textQuestion env).
  destruct (optListExamples env); [reflexivity |].
  cbn [falsy optionalString truthy negb String.eqb].
  destruct (prompts env (textQuestion env)) as [res | reason]; [| reflexivity].
  now destruct (answer res "path").
Qed.

(** *** The statements on the sample command line *)

Lemma create_app_only_for_checked_project_witness :
  optListExamples Sample.env = false
  /\ valid (validateNpmName Sample.env (basename Sample.env (appPath Sample.args)))
     = true
  /\ (exists p, p <> EmptyString /\ appPath Sample.args = resolve Sample.env p)
  /\ (exists e, e <> EmptyString /\ example Sample.args = trim Sample.env e)
  /\ useYarn Sample.args = optUseYarn Sample.env
  /\ examplePath Sample.args
     = option_map (trim Sample.env) (optExamplePath Sample.env).
Proof.
  apply (create_app_only_for_checked_project Sample.env (Returns tt)
           [CreateApp Sample.args] Sample.args).
  - reflexivity.
  - simpl. now left.
Defined.

Lemma create_app_comes_last_and_once_witness :
  filter isCreate [CreateApp Sample.args] = [CreateApp Sample.args]
  /\ last [CreateApp Sample.args] FetchExamples = CreateApp Sample.args
  /\ ((@Throws JsValue unit Sample.installError = Returns tt
       /\ createApp Sample.failing Sample.args = Fulfilled tt)
      \/ exists reason,
           @Throws JsValue unit Sample.installError = Throws reason
           /\ createApp Sample.failing Sample.args = Rejected reason).
Proof.
  apply (create_app_comes_last_and_once Sample.failing
           (Throws Sample.installError) [CreateApp Sample.args] Sample.args).
  - reflexivity.
  - simpl. now left.
Defined.

Lemma run_exits_with_one_before_creating_witness :
  Some 1%Z = Some 1%Z
  /\ filter isCreate (snd (run Sample.bare [])) = []
  /\ existsb isConsoleError (snd (run Sample.bare [])) = true
  /\ optListExamples Sample.bare = false.
Proof.
  apply (run_exits_with_one_before_creating Sample.bare (Some 1%Z)
           (snd (run Sample.bare []))).
  reflexivity.
Defined.

Lemma complete_command_line_needs_nobody_witness :
  filter (fun e => isPrompt e || isFetch e) [CreateApp Sample.args] = [].
Proof.
  apply (complete_command_line_needs_nobody Sample.env (Returns tt)
           [CreateApp Sample.args]); reflexivity.
Defined.

Lemma failed_run_exits_without_code_witness :
  exists lines,
    main Sample.failing []
    = (Exits None,
       ([CreateApp Sample.args] ++ lines ++ updateNotice Sample.failing)%list)
    /\ In (ConsoleLog [JString "Aborting installation."]) lines
    /\ filter isCreate lines = [].
Proof.
  apply (failed_run_exits_without_code Sample.failing Sample.installError
           [CreateApp Sample.args]).
  - reflexivity.
  - discriminate.
  - discriminate.
Defined.

Lemma blank_argument_counts_as_missing_witness :
  run (withArgs0 Sample.env (Some "   ")) [] = run (withArgs0 Sample.env None) [].
Proof.
  apply (blank_argument_counts_as_missing Sample.env "   ").
  reflexivity.
Defined.

End CreateProjectFacts.
